(** * base/tracing/PRESUBMIT.py: presubmit checks for the tracing stdlib

    A shallow embedding of the two presubmit checks of
    [tracing/PRESUBMIT.py], [CheckSqlModules] and [CheckPerfettoTestsTag],
    together with a small model of the presubmit host they talk to.

    The checks are effectful glue: they call into the host ([input_api]),
    spawn a process and may let an exception escape.  They are embedded in
    a state-and-exception monad whose state is the chronological trace of
    host calls, so that "what was called, with which arguments" is a
    property of the program and not of its description. *)

From Stdlib Require Import ZArith Ascii String List Bool.
From stdpp Require Import base option list strings gmap.

Local Open Scope Z_scope.

(** ** Python truth values *)

(** Python's truth protocol, as used by [if x:], [not x] and [any]. *)
Class Truthy (A : Type) := truthy : A -> bool.

(** An [int] is true when it is not zero. *)
#[export] Instance Truthy_int : Truthy Z := fun n => negb (n =? 0).

(** A [str] is true when it is not empty. *)
#[export] Instance Truthy_str : Truthy string :=
  fun s => match s with EmptyString => false | String _ _ => true end.

(** [None] is false; [dict.get] hands back [None] for a missing key. *)
#[export] Instance Truthy_option {A} `{Truthy A} : Truthy (option A) :=
  fun o => match o with None => false | Some a => truthy a end.

(** The builtin [any]. *)
Definition any {A} `{Truthy A} (xs : list A) : bool := existsb truthy xs.

(** ** Regular expressions: the fragment used by the path table *)

Module re.

(** Modelled from the spec: Python's [re.match] is not part of this
    repository.  The spec calls the matching "prefix-anchored
    regular-expression matching"; the two patterns of [_STDLIB_PATHS]
    use the start anchor and ordinary characters only, and that is the
    fragment interpreted here: [^] asserts the start of the subject,
    any other character matches itself. *)
Fixpoint match_here (pattern subject : string) (at_start : bool) : bool :=
  match pattern with
  | EmptyString => true
  | String c pattern' =>
      if Ascii.eqb c "^"%char then at_start && match_here pattern' subject at_start
      else
        match subject with
        | EmptyString => false
        | String d subject' => Ascii.eqb c d && match_here pattern' subject' false
        end
  end.

(** [re.match(pattern, string)], seen through its truth value: the match
    is attempted at the beginning of the subject only. *)
Definition match_ (pattern subject : string) : bool :=
  match_here pattern subject true.

End re.

(** ** Paths *)

Module posixpath.

(** [str.endswith] for a one-character suffix. *)
Fixpoint endswith (s : string) (c : ascii) : bool :=
  match s with
  | EmptyString => false
  | String d EmptyString => Ascii.eqb d c
  | String _ s' => endswith s' c
  end.

Definition startswith (s : string) (c : ascii) : bool :=
  match s with
  | EmptyString => false
  | String d _ => Ascii.eqb d c
  end.

Definition sep : ascii := "/"%char.

(** One turn of the loop of [posixpath.join]. *)
Definition join_step (path b : string) : string :=
  if startswith b sep then b
  else if (match path with EmptyString => true | _ => false end) || endswith path sep
       then path +:+ b
       else path +:+ String sep b.

(** [posixpath.join(a, *p)] of the Python standard library. *)
Definition join (a : string) (p : list string) : string :=
  fold_left join_step p a.

End posixpath.

(** The [os.path] module handed out by the host as [input_api.os_path]. *)
Record OsPath := { join : string -> list string -> string }.

Definition posix_os_path : OsPath := {| join := posixpath.join |}.

(** ** The presubmit host *)

(** An affected file.  The checks only ever look at the path. *)
Record AffectedFile := {
  LocalPath : string;
  NewContents : list string
}.

(** Host objects have no [__bool__] or [__len__]: they are true. *)
#[export] Instance Truthy_AffectedFile : Truthy AffectedFile := fun _ => true.

(** The change under review: its description tags ([KEY=value] lines) and
    the files it touches. *)
Record Change := {
  tags : gmap string string;
  change_files : list AffectedFile
}.

(** [input_api]: what the host knows when it calls a check. *)
Record InputApi := {
  presubmit_local_path : string;
  os_path : OsPath;
  python3_executable : string;
  change : Change
}.

(** The kinds of result the host can report. *)
Inductive PresubmitResult :=
| PresubmitError (message : string)
| PresubmitPromptWarning (message : string)
| PresubmitNotifyResult (message : string).

(** Modelled from the spec: the host's result classes are not part of
    this repository.  An error blocks the submission, a prompt warning
    asks the author, a notification does neither: it is the
    "informational (non-blocking)" kind. *)
Definition fatal (r : PresubmitResult) : bool :=
  match r with PresubmitError _ => true | _ => false end.

Definition should_prompt (r : PresubmitResult) : bool :=
  match r with PresubmitPromptWarning _ => true | _ => false end.

Definition informational (r : PresubmitResult) : bool :=
  negb (fatal r) && negb (should_prompt r).

(** [output_api]: the handle on the host's result constructors. *)
Inductive OutputApi : Set := HostOutputApi.

(** ** Effects: host calls, exceptions, the trace *)

(** What a check can be seen doing. *)
Inductive HostCall :=
| CallPresubmitLocalPath
| CallSubprocess (cmd : list string)
| CallAffectedFiles
| ReadChangeAttr (attr : string).

(** The exception [subprocess.call] raises when the child cannot be
    started. *)
Inductive exn := OSError (errno : Z) (filename : string).

Inductive outcome (A : Type) :=
| Return (a : A)
| Raise (e : exn).
Arguments Return {A} a.
Arguments Raise {A} e.

Definition Trace := list HostCall.

(** A presubmit computation: it extends the trace of host calls and
    either returns or raises. *)
Definition Presubmit (A : Type) : Type := Trace -> outcome A * Trace.

Definition ret {A} (a : A) : Presubmit A := fun t => (Return a, t).

Definition bind {A B} (m : Presubmit A) (k : A -> Presubmit B) : Presubmit B :=
  fun t =>
    match m t with
    | (Return a, t') => k a t'
    | (Raise e, t') => (Raise e, t')
    end.

Notation "'do' x <- m ; k" := (bind m (fun x => k))
  (at level 10, x name, m at level 100, k at level 200,
   format "'[v' 'do'  x  <-  m ; '/' k ']'").

Definition emit {A} (c : HostCall) (o : outcome A) : Presubmit A :=
  fun t => (o, t ++ [c]).

(** Run a check from an empty trace. *)
Definition run {A} (m : Presubmit A) : outcome A * Trace := m [].
Definition result {A} (m : Presubmit A) : outcome A := fst (run m).
Definition calls {A} (m : Presubmit A) : Trace := snd (run m).

(** *** Host primitives *)

(** [input_api.PresubmitLocalPath()]. *)
Definition PresubmitLocalPath (input_api : InputApi) : Presubmit string :=
  emit CallPresubmitLocalPath (Return (presubmit_local_path input_api)).

(** Modelled from the spec: [input_api.FilterSourceFile] is host code.
    The spec describes it as "a path-prefix filter predicate": a file is
    kept when its path matches one of [files_to_check]. *)
Definition FilterSourceFile (input_api : InputApi) (affected_file : AffectedFile)
    (files_to_check : list string) : bool :=
  existsb (fun item => re.match_ item (LocalPath affected_file)) files_to_check.

(** Modelled from the spec: [input_api.AffectedFiles(file_filter=...)],
    the "affected-file enumeration" of the host: the files of the change
    that pass [file_filter], in order. *)
Definition AffectedFiles (input_api : InputApi) (file_filter : AffectedFile -> bool)
    : Presubmit (list AffectedFile) :=
  emit CallAffectedFiles
       (Return (List.filter file_filter (change_files (change input_api)))).

(** Modelled from the spec: "change-description field access".  Reading
    the attribute [attr] of [input_api.change] looks the tag up and gives
    [None] when the description has no such line. *)
Definition change_getattr (input_api : InputApi) (attr : string)
    : Presubmit (option string) :=
  emit (ReadChangeAttr attr) (Return (tags (change input_api) !! attr)).

(** How starting a child process can end. *)
Inductive launch :=
| Exited (returncode : Z)
| NotStarted (e : exn).

(** The [subprocess] module: the operating system decides what becomes of
    a command line. *)
Record Subprocess := { spawn : list string -> launch }.

(** [subprocess.call(cmd)]: the return code of the child, or the
    exception of a failed start. *)
Definition subprocess_call (subprocess : Subprocess) (cmd : list string)
    : Presubmit Z :=
  emit (CallSubprocess cmd)
       (match spawn subprocess cmd with
        | Exited rc => Return rc
        | NotStarted e => Raise e
        end).

(** ** The checks *)

Definition PRESUBMIT_VERSION : string := "2.0.0".

Definition CheckSqlModules (subprocess : Subprocess)
    (input_api : InputApi) (output_api : OutputApi)
    : Presubmit (list PresubmitResult) :=
  do stdlib_dir <- PresubmitLocalPath input_api;
  let chromium_src_dir := join (os_path input_api) stdlib_dir [".."; ".."] in
  let tool := join (os_path input_api) chromium_src_dir
                ["third_party"; "perfetto"; "tools"; "check_sql_modules.py"] in
  let cmd := [python3_executable input_api; tool;
              "--stdlib-sources"; "./stdlib/chrome"] in
  do rc <- subprocess_call subprocess cmd;
  if truthy rc then
    (* TODO(b/283962174): no presubmit failure yet *)
    ret []
  else ret [].

Definition _STDLIB_PATHS : list string :=
  ["^base/tracing/stdlib/"; "^base/tracing/test/"].

Definition message : string :=
  "Must provide PERFETTO_TESTS="
  +:+ "`autoninja -C out/Default perfetto_diff_tests && "
  +:+ "out/Default/bin/run_perfetto_diff_tests` line in CL description."
  +:+ String "010"%char "Please ensure the Perfetto diff tests pass before submitting.".

Definition FileFilter (input_api : InputApi) (affected_file : AffectedFile) : bool :=
  FilterSourceFile input_api affected_file _STDLIB_PATHS.

Definition CheckPerfettoTestsTag (input_api : InputApi) (output_api : OutputApi)
    : Presubmit (list PresubmitResult) :=
  do files <- AffectedFiles input_api (FileFilter input_api);
  if negb (any files) then ret []
  else
    do PERFETTO_TESTS <- change_getattr input_api "PERFETTO_TESTS";
    if truthy PERFETTO_TESTS then ret []
    else ret [PresubmitNotifyResult message].

(** ** Vocabulary of the statements *)

(** The command line [CheckSqlModules] is expected to run. *)
Definition sql_modules_cmd (input_api : InputApi) : list string :=
  let repo_root :=
    join (os_path input_api) (presubmit_local_path input_api) [".."; ".."] in
  [python3_executable input_api;
   join (os_path input_api) repo_root
        ["third_party"; "perfetto"; "tools"; "check_sql_modules.py"];
   "--stdlib-sources"; "./stdlib/chrome"].

(** A path lies under one of the two watched directories.  This is the
    standard library's prefix test, not the regular-expression matcher. *)
Definition under_stdlib_or_test (path : string) : bool :=
  String.prefix "base/tracing/stdlib/" path
  || String.prefix "base/tracing/test/" path.

(** The change touches a watched directory. *)
Definition touches_watched (input_api : InputApi) : Prop :=
  exists f, In f (change_files (change input_api))
            /\ under_stdlib_or_test (LocalPath f) = true.

(** The value of the [PERFETTO_TESTS] field of the description. *)
Definition PERFETTO_TESTS_field (input_api : InputApi) : option string :=
  tags (change input_api) !! "PERFETTO_TESTS".

(** [needle] occurs in [hay]. *)
Definition mentions (needle hay : string) : Prop :=
  exists before after, hay = before +:+ needle +:+ after.

(** A result sequence of the only two shapes the checks produce. *)
Definition empty_or_one_informational (rs : list PresubmitResult) : Prop :=
  rs = [] \/ exists r, rs = [r] /\ informational r = true.

(** The same context with another change description. *)
Definition with_tags (input_api : InputApi) (t : gmap string string) : InputApi :=
  {| presubmit_local_path := presubmit_local_path input_api;
     os_path := os_path input_api;
     python3_executable := python3_executable input_api;
     change := {| tags := t; change_files := change_files (change input_api) |} |}.

(** The same context with another change altogether. *)
Definition with_change (input_api : InputApi) (c : Change) : InputApi :=
  {| presubmit_local_path := presubmit_local_path input_api;
     os_path := os_path input_api;
     python3_executable := python3_executable input_api;
     change := c |}.

(** The same context and description with another list of affected
    files. *)
Definition with_files (input_api : InputApi) (files : list AffectedFile) : InputApi :=
  {| presubmit_local_path := presubmit_local_path input_api;
     os_path := os_path input_api;
     python3_executable := python3_executable input_api;
     change := {| tags := tags (change input_api); change_files := files |} |}.

(** Where [input_api.os_path] is [posixpath], the separator that [join]
    puts between the presubmit-local path and the first [..]: none when
    the path is empty or already ends in one. *)
Definition local_path_sep (local : string) : string :=
  if (match local with EmptyString => true | _ => false end)
     || posixpath.endswith local posixpath.sep
  then "" else "/".

(** Two contexts that differ at most in the contents of their files. *)
Definition same_up_to_contents (a b : InputApi) : Prop :=
  presubmit_local_path a = presubmit_local_path b
  /\ os_path a = os_path b
  /\ python3_executable a = python3_executable b
  /\ tags (change a) = tags (change b)
  /\ map LocalPath (change_files (change a)) = map LocalPath (change_files (change b)).

(** A pattern without the start anchor: every character stands for
    itself. *)
Fixpoint literal (pattern : string) : bool :=
  match pattern with
  | EmptyString => true
  | String c pattern' => negb (Ascii.eqb c "^"%char) && literal pattern'
  end.

(** ** Sample contexts *)

Definition sample_api (files : list AffectedFile) (t : gmap string string) : InputApi :=
  {| presubmit_local_path := "/src/base/tracing";
     os_path := posix_os_path;
     python3_executable := "/usr/bin/python3";
     change := {| tags := t; change_files := files |} |}.

Definition file_at (path : string) : AffectedFile :=
  {| LocalPath := path; NewContents := [] |}.

(** A system where every child starts and exits with [rc]. *)
Definition exits_with (rc : Z) : Subprocess := {| spawn := fun _ => Exited rc |}.

(** A system where no child can be started. *)
Definition cannot_start : Subprocess :=
  {| spawn := fun cmd => NotStarted (OSError 2 (hd "" cmd)) |}.

(** A change to the stdlib whose description has no tag line. *)
Definition untagged_stdlib_change : InputApi :=
  sample_api [file_at "base/tracing/stdlib/foo.sql"] ∅.

(** The same change with an empty [PERFETTO_TESTS=] line. *)
Definition empty_tag_stdlib_change : InputApi :=
  sample_api [file_at "base/tracing/stdlib/foo.sql"] {["PERFETTO_TESTS" := ""]}.

(** The same change, tagged. *)
Definition tagged_stdlib_change : InputApi :=
  sample_api [file_at "base/tracing/stdlib/foo.sql"]
             {["PERFETTO_TESTS" := "ran locally"]}.

(** A change elsewhere in the tree. *)
Definition unrelated_change : InputApi :=
  sample_api [file_at "unrelated/file.cc"] ∅.

(** A change to a file whose path has a watched directory further
    inside, with two versions of its contents. *)
Definition nested_change (contents : list string) : InputApi :=
  sample_api [{| LocalPath := "vendor/base/tracing/stdlib/foo.sql";
                 NewContents := contents |}] ∅.

(** The tagged change seen from another checkout, with the files listed
    twice and an extra tag. *)
Definition tagged_stdlib_change_elsewhere : InputApi :=
  {| presubmit_local_path := "/work/chromium/base/tracing";
     os_path := posix_os_path;
     python3_executable := "/opt/python3";
     change :=
       {| tags := {["PERFETTO_TESTS" := "ran locally"; "BUG" := "283962174"]};
          change_files :=
            [{| LocalPath := "base/tracing/stdlib/foo.sql";
                NewContents := ["SELECT 1;"] |};
             file_at "base/tracing/stdlib/foo.sql"] |} |}.

(** * Properties *)

(** ** The matcher on the path table *)

Lemma match_here_literal pattern :
  literal pattern = true ->
  forall subject at_start,
    re.match_here pattern subject at_start = String.prefix pattern subject.
Proof.
  induction pattern as [|c pattern IH]; intros Hlit subject at_start.
  - destruct subject; reflexivity.
  - cbn [literal] in Hlit. apply andb_prop in Hlit as [Hc Hrest].
    apply negb_true_iff in Hc.
    destruct subject as [|d subject]; cbn [re.match_here String.prefix];
      rewrite Hc; [reflexivity|].
    rewrite (IH Hrest).
    destruct (Ascii.ascii_dec c d) as [->|Hne].
    + rewrite Ascii.eqb_refl. reflexivity.
    + apply Ascii.eqb_neq in Hne. rewrite Hne. reflexivity.
Qed.

Lemma match_anchored pattern subject :
  literal pattern = true ->
  re.match_ (String "^"%char pattern) subject = String.prefix pattern subject.
Proof.
  intros Hlit. unfold re.match_. cbn [re.match_here].
  rewrite Ascii.eqb_refl. apply (match_here_literal pattern Hlit).
Qed.

(** The file filter of the tag check is the prefix test on the path. *)
Lemma FileFilter_prefix input_api f :
  FileFilter input_api f = under_stdlib_or_test (LocalPath f).
Proof.
  unfold FileFilter, FilterSourceFile, _STDLIB_PATHS, under_stdlib_or_test.
  cbn [existsb].
  rewrite !match_anchored by reflexivity.
  rewrite orb_false_r. reflexivity.
Qed.

(** The prefix test means what it should. *)
Lemma prefix_append dir path :
  String.prefix dir path = true <-> exists rest, path = dir +:+ rest.
Proof.
  revert path. induction dir as [|c dir IH]; intros path.
  - split; [intros _; exists path; reflexivity | destruct path; reflexivity].
  - destruct path as [|d path]; cbn.
    + split; [discriminate | intros [rest H]; discriminate H].
    + destruct (Ascii.ascii_dec c d) as [->|Hne].
      * rewrite IH. split; intros [rest H]; exists rest.
        -- rewrite H. reflexivity.
        -- injection H as H. exact H.
      * split; [discriminate | intros [rest H]].
        injection H as Hd _. congruence.
Qed.

(** ** [any] over the filtered files *)

Lemma any_filter (p : AffectedFile -> bool) (files : list AffectedFile) :
  any (List.filter p files) = existsb p files.
Proof.
  unfold any. induction files as [|f files IH]; [reflexivity|].
  cbn [List.filter existsb]. destruct (p f); cbn; [reflexivity | exact IH].
Qed.

Lemma watched_exists input_api :
  touches_watched input_api <->
  existsb (FileFilter input_api) (change_files (change input_api)) = true.
Proof.
  unfold touches_watched. rewrite existsb_exists.
  split; intros [f [Hin Hf]]; exists f; split; try exact Hin.
  - rewrite FileFilter_prefix. exact Hf.
  - rewrite <- (FileFilter_prefix input_api). exact Hf.
Qed.

(** ** The two checks, step by step *)

(** What [CheckPerfettoTestsTag] does from any trace. *)
Lemma CheckPerfettoTestsTag_steps input_api output_api t :
  CheckPerfettoTestsTag input_api output_api t =
  if existsb (FileFilter input_api) (change_files (change input_api)) then
    (Return (if truthy (PERFETTO_TESTS_field input_api) then []
             else [PresubmitNotifyResult message]),
     t ++ [CallAffectedFiles; ReadChangeAttr "PERFETTO_TESTS"])
  else (Return [], t ++ [CallAffectedFiles]).
Proof.
  unfold CheckPerfettoTestsTag, bind, AffectedFiles, emit.
  rewrite any_filter.
  destruct (existsb _ _); cbn [negb]; [|reflexivity].
  unfold change_getattr, emit, PERFETTO_TESTS_field, ret.
  rewrite <- app_assoc. cbn [app].
  destruct (truthy _); reflexivity.
Qed.

(** What [CheckSqlModules] does from any trace. *)
Lemma CheckSqlModules_steps subprocess input_api output_api t :
  CheckSqlModules subprocess input_api output_api t =
  (match spawn subprocess (sql_modules_cmd input_api) with
   | Exited _ => Return []
   | NotStarted e => Raise e
   end,
   t ++ [CallPresubmitLocalPath; CallSubprocess (sql_modules_cmd input_api)]).
Proof.
  unfold CheckSqlModules, bind, PresubmitLocalPath, subprocess_call, emit, ret.
  fold (sql_modules_cmd input_api).
  rewrite <- app_assoc. cbn [app].
  destruct (spawn subprocess (sql_modules_cmd input_api)) as [rc|e];
    [destruct (truthy rc)|]; reflexivity.
Qed.

Lemma unwatched_not_exists input_api (files : list AffectedFile) :
  (forall f, In f files -> FileFilter input_api f = false) ->
  existsb (FileFilter input_api) files = false.
Proof.
  induction files as [|f files IH]; intros H; [reflexivity|].
  cbn [existsb]. rewrite (H f (or_introl eq_refl)). cbn [orb].
  apply IH. intros g Hg. apply H. right. exact Hg.
Qed.

Lemma existsb_watched_paths input_api (files : list AffectedFile) :
  existsb (FileFilter input_api) files
  = existsb under_stdlib_or_test (map LocalPath files).
Proof.
  induction files as [|f files IH]; [reflexivity|].
  cbn [existsb map]. rewrite FileFilter_prefix, IH. reflexivity.
Qed.

Lemma existsb_same_members {A} (p : A -> bool) (xs ys : list A) :
  (forall x, In x xs <-> In x ys) -> existsb p xs = existsb p ys.
Proof.
  intros H. apply eq_true_iff_eq. rewrite !existsb_exists.
  split; intros [x [Hin Hp]]; exists x; split; try exact Hp; apply H; exact Hin.
Qed.

(** ** Paths of the tool under [posixpath] *)

Lemma endswith_append s b c :
  b <> "" -> posixpath.endswith (s +:+ b) c = posixpath.endswith b c.
Proof.
  intros Hb. induction s as [|d s IH]; [reflexivity|].
  change (String d s +:+ b) with (String d (s +:+ b)). rewrite <- IH.
  destruct (s +:+ b) eqn:E; [|reflexivity].
  destruct s; [contradiction | discriminate E].
Qed.

Lemma append_assoc (a b c : string) : (a +:+ b) +:+ c = a +:+ (b +:+ c).
Proof.
  induction a as [|x a IH]; [reflexivity|].
  change (String x ((a +:+ b) +:+ c) = String x (a +:+ (b +:+ c))).
  f_equal. exact IH.
Qed.

Lemma append_nonempty s b : b <> "" -> s +:+ b <> "".
Proof. intros Hb. destruct s; [exact Hb | discriminate]. Qed.

Lemma join_step_plain path b :
  path <> "" -> posixpath.endswith path posixpath.sep = false ->
  posixpath.startswith b posixpath.sep = false ->
  posixpath.join_step path b = path +:+ String posixpath.sep b.
Proof.
  intros Hne Hend Hstart. unfold posixpath.join_step.
  rewrite Hstart, Hend. destruct path; [contradiction | reflexivity].
Qed.

(** Joining one more ordinary component onto a path that already ends
    in one. *)
Ltac join_plain_step :=
  match goal with
  | |- context [posixpath.join_step (?r +:+ ?x) ?b] =>
      rewrite (join_step_plain (r +:+ x) b);
      [ | apply append_nonempty; discriminate
        | rewrite endswith_append by discriminate; reflexivity
        | reflexivity ]
  end.

Lemma join_dotdot_shape a :
  exists s, posixpath.join a [".."; ".."] = s +:+ "..".
Proof.
  unfold posixpath.join. cbn [fold_left].
  set (p := posixpath.join_step a "..").
  unfold posixpath.join_step at 1. cbn [posixpath.startswith].
  change (Ascii.eqb "." posixpath.sep) with false. cbv iota.
  destruct (_ || _).
  - exists p. reflexivity.
  - exists (p +:+ "/"). rewrite append_assoc. reflexivity.
Qed.

(** With POSIX paths the tool is found below the repository root, two
    levels above the directory of the presubmit file. *)
Lemma posix_tool_path input_api :
  os_path input_api = posix_os_path ->
  nth 1 (sql_modules_cmd input_api) ""
  = posixpath.join (presubmit_local_path input_api) [".."; ".."]
    +:+ "/third_party/perfetto/tools/check_sql_modules.py".
Proof.
  intros Hos. unfold sql_modules_cmd. rewrite Hos. cbn [nth join posix_os_path].
  destruct (join_dotdot_shape (presubmit_local_path input_api)) as [s Hs].
  rewrite Hs. set (root := s +:+ "..").
  assert (Hroot : root <> "") by (apply append_nonempty; discriminate).
  assert (Hend : posixpath.endswith root posixpath.sep = false)
    by (unfold root; rewrite endswith_append by discriminate; reflexivity).
  unfold posixpath.join. cbn [fold_left].
  rewrite (join_step_plain root "third_party" Hroot Hend eq_refl).
  do 3 join_plain_step.
  rewrite !append_assoc. reflexivity.
Qed.

(** * The claims *)

Section SqlModules.

Variable subprocess : Subprocess.
Variable input_api : InputApi.
Variable output_api : OutputApi.

(** C2: given that the child process can be launched, [CheckSqlModules]
    returns the empty result sequence whatever the exit code of the
    tool: the zero and the non-zero branch give the same empty list. *)
Theorem C2_sql_modules_ignores_exit_code (rc : Z) :
  spawn subprocess (sql_modules_cmd input_api) = Exited rc ->
  result (CheckSqlModules subprocess input_api output_api) = Return [].
Proof.
  intros Hrc. unfold result, run. rewrite CheckSqlModules_steps, Hrc.
  reflexivity.
Qed.

(** C6: the command [CheckSqlModules] builds and runs is exactly the
    interpreter, the tool at third_party/perfetto/tools/check_sql_modules.py
    below the repository root, [--stdlib-sources] and [./stdlib/chrome],
    the repository root being the presubmit-local path joined with [..]
    and [..]; it is the only command run. *)
Theorem C6_sql_modules_command :
  calls (CheckSqlModules subprocess input_api output_api) =
  [CallPresubmitLocalPath;
   CallSubprocess
     [python3_executable input_api;
      join (os_path input_api)
           (join (os_path input_api) (presubmit_local_path input_api) [".."; ".."])
           ["third_party"; "perfetto"; "tools"; "check_sql_modules.py"];
      "--stdlib-sources";
      "./stdlib/chrome"]].
Proof.
  unfold calls, run. rewrite CheckSqlModules_steps. reflexivity.
Qed.

(** C8: [CheckSqlModules] raises exactly when the child process cannot
    be started, and what it raises is the exception of the failed start,
    unchanged: nothing is caught on the way. *)
Theorem C8_sql_modules_raises_iff_launch_fails (e : exn) :
  result (CheckSqlModules subprocess input_api output_api) = Raise e
  <-> spawn subprocess (sql_modules_cmd input_api) = NotStarted e.
Proof.
  unfold result, run. rewrite CheckSqlModules_steps. cbn [fst].
  destruct (spawn subprocess (sql_modules_cmd input_api)) as [rc|e'].
  - split; discriminate.
  - split; intros H; injection H as ->; reflexivity.
Qed.

(** C9: [CheckSqlModules] starts the child process for every change
    context and never asks for the affected files: the process call is
    in its trace, the affected-file enumeration is not, and replacing
    the change (its files and description) by any other changes
    nothing. *)
Theorem C9_sql_modules_spawns_unconditionally :
  In (CallSubprocess (sql_modules_cmd input_api))
     (calls (CheckSqlModules subprocess input_api output_api))
  /\ ~ In CallAffectedFiles
          (calls (CheckSqlModules subprocess input_api output_api))
  /\ forall c : Change,
       run (CheckSqlModules subprocess (with_change input_api c) output_api)
       = run (CheckSqlModules subprocess input_api output_api).
Proof.
  unfold calls, run. split; [|split].
  - rewrite CheckSqlModules_steps. right. left. reflexivity.
  - rewrite CheckSqlModules_steps. cbn.
    intros [H|[H|[]]]; discriminate H.
  - intros c. rewrite !CheckSqlModules_steps. reflexivity.
Qed.

End SqlModules.

Section PerfettoTestsTag.

Variable input_api : InputApi.
Variable output_api : OutputApi.

(** C1: when some affected file lies under base/tracing/stdlib/ or
    base/tracing/test/ and the [PERFETTO_TESTS] field of the description
    is missing or falsy, [CheckPerfettoTestsTag] returns exactly one
    result, an informational one, whose message is the fixed
    instructional text; that text mentions
    [autoninja -C out/Default perfetto_diff_tests]. *)
Theorem C1_missing_tag_notifies :
  touches_watched input_api ->
  truthy (PERFETTO_TESTS_field input_api) = false ->
  result (CheckPerfettoTestsTag input_api output_api)
    = Return [PresubmitNotifyResult message]
  /\ informational (PresubmitNotifyResult message) = true
  /\ mentions "autoninja -C out/Default perfetto_diff_tests" message.
Proof.
  intros Hfiles Htag. apply watched_exists in Hfiles.
  split; [|split].
  - unfold result, run. rewrite CheckPerfettoTestsTag_steps, Hfiles, Htag.
    reflexivity.
  - reflexivity.
  - exists "Must provide PERFETTO_TESTS=`".
    eexists. reflexivity.
Qed.

(** C3: when no affected file matches either pattern of the path table,
    [CheckPerfettoTestsTag] returns the empty result, and it does so
    without reading the change description: no attribute of the change
    is read, and another description gives the same run. *)
Theorem C3_unwatched_change_passes_unread :
  (forall f, In f (change_files (change input_api)) ->
     forall pattern, In pattern _STDLIB_PATHS ->
       re.match_ pattern (LocalPath f) = false) ->
  result (CheckPerfettoTestsTag input_api output_api) = Return []
  /\ (forall attr, ~ In (ReadChangeAttr attr)
                        (calls (CheckPerfettoTestsTag input_api output_api)))
  /\ forall t : gmap string string,
       run (CheckPerfettoTestsTag (with_tags input_api t) output_api)
       = run (CheckPerfettoTestsTag input_api output_api).
Proof.
  intros Hnone.
  assert (Hfiles : forall api',
            change_files (change api') = change_files (change input_api) ->
            existsb (FileFilter api') (change_files (change api')) = false).
  { intros api' Heq. rewrite Heq. apply unwatched_not_exists. intros f Hin.
    unfold FileFilter, FilterSourceFile, _STDLIB_PATHS. cbn [existsb].
    rewrite (Hnone f Hin "^base/tracing/stdlib/") by (left; reflexivity).
    rewrite (Hnone f Hin "^base/tracing/test/") by (right; left; reflexivity).
    reflexivity. }
  unfold result, calls, run. split; [|split].
  - rewrite CheckPerfettoTestsTag_steps, (Hfiles input_api eq_refl). reflexivity.
  - intros attr. rewrite CheckPerfettoTestsTag_steps, (Hfiles input_api eq_refl).
    cbn. intros [H|[]]. discriminate H.
  - intros t. rewrite !CheckPerfettoTestsTag_steps.
    rewrite (Hfiles input_api eq_refl), (Hfiles (with_tags input_api t) eq_refl).
    reflexivity.
Qed.

(** C4: when some affected file lies under base/tracing/stdlib/ or
    base/tracing/test/ and the description has a truthy [PERFETTO_TESTS]
    field, [CheckPerfettoTestsTag] returns the empty result. *)
Theorem C4_tagged_change_passes :
  touches_watched input_api ->
  truthy (PERFETTO_TESTS_field input_api) = true ->
  result (CheckPerfettoTestsTag input_api output_api) = Return [].
Proof.
  intros Hfiles Htag. apply watched_exists in Hfiles.
  unfold result, run. rewrite CheckPerfettoTestsTag_steps, Hfiles, Htag.
  reflexivity.
Qed.

(** C5: the path test is anchored at the start.  When every affected
    file lies outside base/tracing/stdlib/ and base/tracing/test/ (a
    path that has one of them further inside is outside), the tag check
    returns the empty result, and a context that differs only in the
    contents of the files runs the same way. *)
Theorem C5_outside_prefixes_contents_irrelevant :
  Forall (fun f => under_stdlib_or_test (LocalPath f) = false)
         (change_files (change input_api)) ->
  result (CheckPerfettoTestsTag input_api output_api) = Return []
  /\ forall input_api',
       same_up_to_contents input_api input_api' ->
       run (CheckPerfettoTestsTag input_api' output_api)
       = run (CheckPerfettoTestsTag input_api output_api).
Proof.
  intros Hout.
  assert (Hfiles : existsb (FileFilter input_api)
                     (change_files (change input_api)) = false).
  { apply unwatched_not_exists. intros f Hin. rewrite FileFilter_prefix.
    rewrite List.Forall_forall in Hout. exact (Hout f Hin). }
  unfold result, run. split.
  - rewrite CheckPerfettoTestsTag_steps, Hfiles. reflexivity.
  - intros api' (_ & _ & _ & _ & Hpaths).
    rewrite !CheckPerfettoTestsTag_steps.
    rewrite (existsb_watched_paths api'), <- Hpaths,
      <- (existsb_watched_paths input_api), Hfiles.
    reflexivity.
Qed.

End PerfettoTestsTag.

(** C7: a result returned by either check is empty or holds exactly one
    informational message, so never more than one element.
    [CheckPerfettoTestsTag] always returns; [CheckSqlModules] returns
    unless the child process cannot be started. *)
Theorem C7_results_have_at_most_one_message
    (subprocess : Subprocess) (input_api : InputApi) (output_api : OutputApi) :
  match result (CheckSqlModules subprocess input_api output_api) with
  | Return rs => empty_or_one_informational rs /\ (length rs <= 1)%nat
  | Raise e => spawn subprocess (sql_modules_cmd input_api) = NotStarted e
  end
  /\ exists rs,
       result (CheckPerfettoTestsTag input_api output_api) = Return rs
       /\ empty_or_one_informational rs /\ (length rs <= 1)%nat.
Proof.
  unfold result, run. split.
  - rewrite CheckSqlModules_steps. cbn [fst].
    destruct (spawn subprocess (sql_modules_cmd input_api)) as [rc|e].
    + split; [left; reflexivity | cbn; lia].
    + reflexivity.
  - rewrite CheckPerfettoTestsTag_steps.
    destruct (existsb _ _); [destruct (truthy _)|]; eexists; cbn [fst];
      (split; [reflexivity|]); split; cbn; try lia;
      try (left; reflexivity).
    right. eexists. split; reflexivity.
Qed.

(** C10: both checks are functions of their inputs.  Two contexts whose
    affected files have the same set of paths and whose [PERFETTO_TESTS]
    fields are equal get the same result from [CheckPerfettoTestsTag];
    two contexts with the same local path, path module and interpreter,
    on systems where child processes behave alike, get the same result
    from [CheckSqlModules]. *)
Theorem C10_checks_are_deterministic :
  (forall a b out_a out_b,
      (forall p, In p (map LocalPath (change_files (change a)))
                 <-> In p (map LocalPath (change_files (change b)))) ->
      PERFETTO_TESTS_field a = PERFETTO_TESTS_field b ->
      result (CheckPerfettoTestsTag a out_a)
      = result (CheckPerfettoTestsTag b out_b))
  /\ (forall sys_a sys_b a b out_a out_b,
        presubmit_local_path a = presubmit_local_path b ->
        os_path a = os_path b ->
        python3_executable a = python3_executable b ->
        (forall cmd, spawn sys_a cmd = spawn sys_b cmd) ->
        result (CheckSqlModules sys_a a out_a)
        = result (CheckSqlModules sys_b b out_b)).
Proof.
  unfold result, run. split.
  - intros a b out_a out_b Hpaths Htag.
    rewrite !CheckPerfettoTestsTag_steps, !existsb_watched_paths.
    rewrite (existsb_same_members _ _ _ Hpaths), Htag.
    destruct (existsb _ _); reflexivity.
  - intros sys_a sys_b a b out_a out_b Hlocal Hos Hpy Hspawn.
    rewrite !CheckSqlModules_steps.
    assert (Hcmd : sql_modules_cmd a = sql_modules_cmd b)
      by (unfold sql_modules_cmd; rewrite Hlocal, Hos, Hpy; reflexivity).
    rewrite Hcmd, Hspawn. reflexivity.
Qed.

(** * The claims at concrete inputs *)

Lemma C1_missing_tag_notifies_witness :
  touches_watched untagged_stdlib_change
  /\ truthy (PERFETTO_TESTS_field untagged_stdlib_change) = false
  /\ result (CheckPerfettoTestsTag untagged_stdlib_change HostOutputApi)
       = Return [PresubmitNotifyResult message]
  /\ informational (PresubmitNotifyResult message) = true
  /\ mentions "autoninja -C out/Default perfetto_diff_tests" message.
Proof.
  assert (Hfiles : touches_watched untagged_stdlib_change).
  { exists (file_at "base/tracing/stdlib/foo.sql").
    split; [left; reflexivity | reflexivity]. }
  assert (Htag : truthy (PERFETTO_TESTS_field untagged_stdlib_change) = false)
    by reflexivity.
  split; [exact Hfiles | split; [exact Htag |]].
  exact (C1_missing_tag_notifies untagged_stdlib_change HostOutputApi Hfiles Htag).
Defined.

Lemma C2_sql_modules_ignores_exit_code_witness :
  spawn (exits_with 1) (sql_modules_cmd unrelated_change) = Exited 1
  /\ result (CheckSqlModules (exits_with 1) unrelated_change HostOutputApi)
     = Return [].
Proof.
  split; [reflexivity|].
  apply (C2_sql_modules_ignores_exit_code
           (exits_with 1) unrelated_change HostOutputApi 1).
  reflexivity.
Defined.

Lemma C3_unwatched_change_passes_unread_witness :
  result (CheckPerfettoTestsTag unrelated_change HostOutputApi) = Return []
  /\ ~ In (ReadChangeAttr "PERFETTO_TESTS")
          (calls (CheckPerfettoTestsTag unrelated_change HostOutputApi))
  /\ run (CheckPerfettoTestsTag
            (with_tags unrelated_change {["PERFETTO_TESTS" := "ran locally"]})
            HostOutputApi)
     = run (CheckPerfettoTestsTag unrelated_change HostOutputApi).
Proof.
  destruct (C3_unwatched_change_passes_unread unrelated_change HostOutputApi)
    as (Hres & Hunread & Hsame).
  - intros f [<-|[]] pattern [<-|[<-|[]]]; reflexivity.
  - split; [exact Hres | split; [apply Hunread | apply Hsame]].
Defined.

Lemma C4_tagged_change_passes_witness :
  touches_watched tagged_stdlib_change
  /\ truthy (PERFETTO_TESTS_field tagged_stdlib_change) = true
  /\ result (CheckPerfettoTestsTag tagged_stdlib_change HostOutputApi) = Return [].
Proof.
  assert (Hfiles : touches_watched tagged_stdlib_change).
  { exists (file_at "base/tracing/stdlib/foo.sql").
    split; [left; reflexivity | reflexivity]. }
  assert (Htag : truthy (PERFETTO_TESTS_field tagged_stdlib_change) = true)
    by reflexivity.
  split; [exact Hfiles | split; [exact Htag |]].
  exact (C4_tagged_change_passes tagged_stdlib_change HostOutputApi Hfiles Htag).
Defined.

Lemma C5_outside_prefixes_contents_irrelevant_witness :
  result (CheckPerfettoTestsTag (nested_change ["SELECT 1;"]) HostOutputApi)
    = Return []
  /\ run (CheckPerfettoTestsTag (nested_change ["DROP TABLE slices;"]) HostOutputApi)
     = run (CheckPerfettoTestsTag (nested_change ["SELECT 1;"]) HostOutputApi).
Proof.
  destruct (C5_outside_prefixes_contents_irrelevant
              (nested_change ["SELECT 1;"]) HostOutputApi)
    as (Hres & Hsame).
  - constructor; [reflexivity | constructor].
  - split; [exact Hres|].
    apply Hsame. repeat split.
Defined.

Lemma C10_checks_are_deterministic_witness :
  result (CheckPerfettoTestsTag tagged_stdlib_change HostOutputApi)
    = result (CheckPerfettoTestsTag tagged_stdlib_change_elsewhere HostOutputApi)
  /\ result (CheckSqlModules cannot_start tagged_stdlib_change HostOutputApi)
     = result (CheckSqlModules cannot_start untagged_stdlib_change HostOutputApi).
Proof.
  destruct C10_checks_are_deterministic as (Htag & Hsql).
  split.
  - apply Htag; [|reflexivity].
    intros p. cbn. tauto.
  - apply Hsql; reflexivity.
Defined.

(** * The scenarios of the specification, by evaluation *)

Example scenario_untagged :
  run (CheckPerfettoTestsTag untagged_stdlib_change HostOutputApi)
  = (Return [PresubmitNotifyResult message],
     [CallAffectedFiles; ReadChangeAttr "PERFETTO_TESTS"]).
Proof. reflexivity. Qed.

Example scenario_empty_tag :
  run (CheckPerfettoTestsTag empty_tag_stdlib_change HostOutputApi)
  = (Return [PresubmitNotifyResult message],
     [CallAffectedFiles; ReadChangeAttr "PERFETTO_TESTS"]).
Proof. reflexivity. Qed.

Example scenario_tagged :
  run (CheckPerfettoTestsTag tagged_stdlib_change HostOutputApi)
  = (Return [], [CallAffectedFiles; ReadChangeAttr "PERFETTO_TESTS"]).
Proof. reflexivity. Qed.

Example scenario_unrelated :
  run (CheckPerfettoTestsTag unrelated_change HostOutputApi)
  = (Return [], [CallAffectedFiles]).
Proof. reflexivity. Qed.

Example scenario_nested_prefix :
  run (CheckPerfettoTestsTag (nested_change ["SELECT 1;"]) HostOutputApi)
  = (Return [], [CallAffectedFiles]).
Proof. reflexivity. Qed.

Example scenario_sql_modules_fails :
  run (CheckSqlModules (exits_with 1) unrelated_change HostOutputApi)
  = (Return [],
     [CallPresubmitLocalPath;
      CallSubprocess
        ["/usr/bin/python3";
         "/src/base/tracing/../../third_party/perfetto/tools/check_sql_modules.py";
         "--stdlib-sources"; "./stdlib/chrome"]]).
Proof. reflexivity. Qed.

Example scenario_sql_modules_cannot_start :
  result (CheckSqlModules cannot_start unrelated_change HostOutputApi)
  = Raise (OSError 2 "/usr/bin/python3").
Proof. reflexivity. Qed.

(** * Further properties of the checks *)

(** ** When the tag check speaks *)

(** X1: [CheckPerfettoTestsTag] returns the notification exactly when
    the change touches a watched directory and has no truthy
    [PERFETTO_TESTS] field, and the empty result exactly otherwise: a
    notification is never sent to a change that does not need one. *)
Theorem tag_check_notifies_iff (input_api : InputApi) (output_api : OutputApi) :
  (result (CheckPerfettoTestsTag input_api output_api)
     = Return [PresubmitNotifyResult message]
   <-> touches_watched input_api
       /\ truthy (PERFETTO_TESTS_field input_api) = false)
  /\ (result (CheckPerfettoTestsTag input_api output_api) = Return []
      <-> ~ touches_watched input_api
          \/ truthy (PERFETTO_TESTS_field input_api) = true).
Proof.
  unfold result, run. rewrite CheckPerfettoTestsTag_steps.
  rewrite watched_exists.
  destruct (existsb _ _); cbn [fst];
    [destruct (truthy (PERFETTO_TESTS_field input_api))|].
  - split; split; try discriminate; try (intros [_ H]; discriminate H).
    + intros _. right. reflexivity.
    + reflexivity.
  - split; split; try discriminate.
    + intros _. split; reflexivity.
    + reflexivity.
    + intros [H|H]; [contradiction H; reflexivity | discriminate H].
  - split; split; try discriminate; try (intros [H _]; discriminate H).
    + intros _. left. discriminate.
    + reflexivity.
Qed.

(** X2: a [PERFETTO_TESTS] line with any non-empty value satisfies the
    check, whatever the files of the change and whatever the rest of
    the description: the value itself is not looked at. *)
Theorem tagging_satisfies_check (input_api : InputApi) (output_api : OutputApi)
    (t : gmap string string) (value : string) :
  value <> "" ->
  result (CheckPerfettoTestsTag
            (with_tags input_api (<["PERFETTO_TESTS" := value]> t)) output_api)
  = Return [].
Proof.
  intros Hvalue. unfold result, run. rewrite CheckPerfettoTestsTag_steps.
  unfold PERFETTO_TESTS_field. cbn [with_tags change tags].
  rewrite lookup_insert_eq.
  destruct value as [|c value]; [contradiction|].
  destruct (existsb _ _); reflexivity.
Qed.

(** ** What the tag check touches *)

(** X3: [CheckPerfettoTestsTag] reads the change description exactly
    when the change touches a watched directory, and then only its
    [PERFETTO_TESTS] attribute; it always enumerates the affected files,
    and it never starts a process nor asks for the local path. *)
Theorem tag_check_host_calls (input_api : InputApi) (output_api : OutputApi) :
  (In (ReadChangeAttr "PERFETTO_TESTS")
      (calls (CheckPerfettoTestsTag input_api output_api))
   <-> touches_watched input_api)
  /\ (forall attr,
        In (ReadChangeAttr attr) (calls (CheckPerfettoTestsTag input_api output_api)) ->
        attr = "PERFETTO_TESTS")
  /\ In CallAffectedFiles (calls (CheckPerfettoTestsTag input_api output_api))
  /\ (forall cmd,
        ~ In (CallSubprocess cmd) (calls (CheckPerfettoTestsTag input_api output_api)))
  /\ ~ In CallPresubmitLocalPath (calls (CheckPerfettoTestsTag input_api output_api)).
Proof.
  unfold calls, run. rewrite CheckPerfettoTestsTag_steps, watched_exists.
  destruct (existsb _ _); cbn [snd app].
  - split; [|split; [|split; [|split]]].
    + split; [reflexivity | intros _; right; left; reflexivity].
    + intros attr [H|[H|[]]]; [discriminate H | injection H as <-; reflexivity].
    + left. reflexivity.
    + intros cmd [H|[H|[]]]; discriminate H.
    + intros [H|[H|[]]]; discriminate H.
  - split; [|split; [|split; [|split]]].
    + split; [intros [H|[]]; discriminate H | discriminate].
    + intros attr [H|[]]. discriminate H.
    + left. reflexivity.
    + intros cmd [H|[]]. discriminate H.
    + intros [H|[]]. discriminate H.
Qed.

(** ** Changes put together *)

(** X4: under one description, the tag check passes on the files of two
    changes put together exactly when it passes on each of them; on a
    change with no files it passes. *)
Theorem tag_check_on_combined_files (input_api : InputApi) (output_api : OutputApi)
    (fs gs : list AffectedFile) :
  (result (CheckPerfettoTestsTag (with_files input_api (fs ++ gs)) output_api)
     = Return []
   <-> result (CheckPerfettoTestsTag (with_files input_api fs) output_api) = Return []
       /\ result (CheckPerfettoTestsTag (with_files input_api gs) output_api) = Return [])
  /\ result (CheckPerfettoTestsTag (with_files input_api []) output_api) = Return [].
Proof.
  unfold result, run. rewrite !CheckPerfettoTestsTag_steps.
  cbn [with_files change change_files].
  change (PERFETTO_TESTS_field (with_files input_api (fs ++ gs)))
    with (PERFETTO_TESTS_field input_api).
  change (PERFETTO_TESTS_field (with_files input_api fs))
    with (PERFETTO_TESTS_field input_api).
  change (PERFETTO_TESTS_field (with_files input_api gs))
    with (PERFETTO_TESTS_field input_api).
  rewrite !existsb_watched_paths, map_app, existsb_app.
  split; [|reflexivity].
  destruct (existsb under_stdlib_or_test (map LocalPath fs));
    destruct (existsb under_stdlib_or_test (map LocalPath gs));
    destruct (truthy (PERFETTO_TESTS_field input_api)); cbn;
    split; try (intros [H1 H2]); try discriminate; try (split; reflexivity);
    reflexivity.
Qed.

(** ** The file filter *)

(** X5: the filter of the tag check keeps a file exactly when its path
    is one of the two directory names followed by anything, so with a
    file it keeps every file further down the same path. *)
Theorem FileFilter_keeps_watched_trees (input_api : InputApi) (f : AffectedFile) :
  (FileFilter input_api f = true
   <-> exists rest,
         LocalPath f = "base/tracing/stdlib/" +:+ rest
         \/ LocalPath f = "base/tracing/test/" +:+ rest)
  /\ forall (g : AffectedFile) (more : string),
       LocalPath g = LocalPath f +:+ more ->
       FileFilter input_api f = true -> FileFilter input_api g = true.
Proof.
  assert (Hiff : forall h,
            FileFilter input_api h = true
            <-> exists rest,
                  LocalPath h = "base/tracing/stdlib/" +:+ rest
                  \/ LocalPath h = "base/tracing/test/" +:+ rest).
  { intros h. rewrite FileFilter_prefix. unfold under_stdlib_or_test.
    rewrite orb_true_iff, !prefix_append.
    split.
    - intros [[rest H]|[rest H]]; exists rest; [left | right]; exact H.
    - intros [rest [H|H]]; [left | right]; exists rest; exact H. }
  split; [apply Hiff|].
  intros g more Hg Hf. apply Hiff. apply Hiff in Hf as [rest [H|H]];
    exists (rest +:+ more); [left | right]; rewrite Hg, H;
    apply append_assoc.
Qed.

(** ** The tool under POSIX paths *)

Lemma posix_repo_root local :
  posixpath.join local [".."; ".."] = local +:+ local_path_sep local +:+ "../..".
Proof.
  unfold posixpath.join, local_path_sep. cbn [fold_left].
  unfold posixpath.join_step at 2. cbn [posixpath.startswith].
  change (Ascii.eqb "." posixpath.sep) with false. cbv iota.
  destruct (_ || _).
  - rewrite join_step_plain;
      [ | apply append_nonempty; discriminate
        | rewrite endswith_append by discriminate; reflexivity
        | reflexivity ].
    rewrite append_assoc. reflexivity.
  - rewrite join_step_plain;
      [ | apply append_nonempty; discriminate
        | rewrite endswith_append by discriminate; reflexivity
        | reflexivity ].
    rewrite append_assoc. reflexivity.
Qed.

(** X6: where [input_api.os_path] joins paths as [posixpath] does, the
    one command [CheckSqlModules] runs names the tool by the
    presubmit-local path followed by
    [../../third_party/perfetto/tools/check_sql_modules.py], with a
    separator in between unless the local path is empty or ends in
    one. *)
Theorem sql_modules_tool_path_posix
    (subprocess : Subprocess) (input_api : InputApi) (output_api : OutputApi) :
  os_path input_api = posix_os_path ->
  calls (CheckSqlModules subprocess input_api output_api) =
  [CallPresubmitLocalPath;
   CallSubprocess
     [python3_executable input_api;
      presubmit_local_path input_api
        +:+ local_path_sep (presubmit_local_path input_api)
        +:+ "../../third_party/perfetto/tools/check_sql_modules.py";
      "--stdlib-sources";
      "./stdlib/chrome"]].
Proof.
  intros Hos. unfold calls, run. rewrite CheckSqlModules_steps. cbn [snd app].
  pose proof (posix_tool_path input_api Hos) as Htool.
  unfold sql_modules_cmd in *. cbn [nth] in Htool. rewrite Htool.
  rewrite posix_repo_root, !append_assoc. reflexivity.
Qed.

(** * The further properties at concrete inputs *)

Lemma tagging_satisfies_check_witness :
  "yes"%string <> ""%string
  /\ result (CheckPerfettoTestsTag
               (with_tags empty_tag_stdlib_change
                  (<["PERFETTO_TESTS" := "yes"]>
                     (tags (change empty_tag_stdlib_change))))
               HostOutputApi)
     = Return [].
Proof.
  split; [discriminate|].
  apply (tagging_satisfies_check empty_tag_stdlib_change HostOutputApi).
  discriminate.
Defined.

Lemma sql_modules_tool_path_posix_witness :
  os_path unrelated_change = posix_os_path
  /\ calls (CheckSqlModules cannot_start unrelated_change HostOutputApi) =
     [CallPresubmitLocalPath;
      CallSubprocess
        ["/usr/bin/python3";
         "/src/base/tracing/../../third_party/perfetto/tools/check_sql_modules.py";
         "--stdlib-sources";
         "./stdlib/chrome"]].
Proof.
  split; [reflexivity|].
  exact (sql_modules_tool_path_posix cannot_start unrelated_change HostOutputApi
           eq_refl).
Defined.
